(** * ToolBuilder: a fluent builder for AI-SDK tools with a validated context

    Shallow embedding of [src/tool-builder.ts].  The class has two fields
    ([toolConfig], [contextSchema]) and three methods ([withContext], [tool],
    [build]); the module exports one instance, [toolBuilder].

    JavaScript objects live in a store indexed by locations; a method takes
    its receiver ([this]) as an explicit location, and a property read goes
    through the receiver's own properties and then its class prototype, as
    the language does.  The schema library (zod) is an interface here: the
    builder only ever calls [parse] and [extend] on a schema, and [extend]
    always with a schema object as its argument, which zod refuses. *)

From stdpp Require Import gmap strings list fin_maps.

(** ** The schema library, as the builder sees it *)

(** What [tool-builder.ts] uses of a [z.ZodObject] that can return:
    [schema.parse(ctx)], which gives the parsed value or throws a
    [z.ZodError].  [Tool] is the AI SDK's tool record; the builder never
    looks inside one.  The other call, [schema.extend(other)], is
    [call_extend] below. *)
Class SchemaLib := {
  Schema : Type;
  Ctx : Type;
  ZodError : Type;
  Tool : Type;
  parse : Schema → Ctx → ZodError + Ctx;
}.

Section Builder.
Context `{L : SchemaLib}.

(** ** Values, objects and the store *)

(** The argument of [tool]: [Tool | ((ctx) => Tool)]. *)
Inductive ToolConfig :=
| CStatic (d : Tool)
| CFunction (f : Ctx → Tool).

(** The values that the fields of the class and of the handle hold.
    [VBuild] is the function object [ToolBuilder.prototype.build]. *)
Inductive val :=
| VUndefined
| VNull
| VSchema (s : Schema)
| VTool (d : Tool)
| VFun (f : Ctx → Tool)
| VBuild.

Definition val_of_config (c : ToolConfig) : val :=
  match c with
  | CStatic d => VTool d
  | CFunction f => VFun f
  end.

(** [if (v)] and [!v]: [undefined] and [null] are falsy, objects and
    functions are truthy. *)
Definition truthy (v : val) : bool :=
  match v with
  | VUndefined | VNull => false
  | _ => true
  end.

(** [typeof v === "function"]. *)
Definition typeof_function (v : val) : bool :=
  match v with
  | VFun _ | VBuild => true
  | _ => false
  end.

Inductive class := CToolBuilder | CObject.

(** An object: its class and its own properties. *)
Record obj := Obj { cls : class; own : gmap string val }.

Abbreviation loc := positive (only parsing).
Abbreviation heap := (gmap positive obj) (only parsing).

(** Prototype lookup.  [withContext] and [tool] are only ever called, never
    read as values, so [build] is the one method that exists as a value. *)
Definition proto_lookup (c : class) (p : string) : val :=
  match c with
  | CToolBuilder => if decide (p = "build") then VBuild else VUndefined
  | CObject => VUndefined
  end.

Definition read (o : obj) (p : string) : val :=
  match own o !! p with
  | Some v => v
  | None => proto_lookup (cls o) p
  end.

(** ** Outcomes and the store monad *)

Inductive exn :=
| Error (msg : string)        (* [new Error(msg)] *)
| ZodErr (e : ZodError)       (* thrown by [parse] *)
| TypeError                   (* a property of nothing, a call of a non-function *)
| RangeError.                 (* call stack exhausted *)

Inductive outcome (A : Type) :=
| Ok (a : A)
| Throw (e : exn).
Global Arguments Ok {A} a.
Global Arguments Throw {A} e.

(** A computation runs on a store and leaves a store, also when it throws. *)
Definition M (A : Type) : Type := heap → outcome A * heap.

Definition ret {A} (a : A) : M A := λ h, (Ok a, h).
Definition throw {A} (e : exn) : M A := λ h, (Throw e, h).
Definition bind {A B} (m : M A) (k : A → M B) : M B :=
  λ h, match m h with
       | (Ok a, h') => k a h'
       | (Throw e, h') => (Throw e, h')
       end.

(** [x ← m; k] and [m;; k] below are stdpp notations, for this bind. *)
#[global] Instance M_ret : MRet M := @ret.
#[global] Instance M_bind : MBind M := λ A B k m, bind m k.

(** [new C()] / an object literal: a location the store does not hold yet. *)
Definition alloc (o : obj) : M loc :=
  λ h, let l := fresh (dom h) in (Ok l, <[l := o]> h).

(** [l.p] *)
Definition get_prop (l : loc) (p : string) : M val :=
  λ h, match h !! l with
       | Some o => (Ok (read o p), h)
       | None => (Throw TypeError, h)
       end.

(** [l.p = v] *)
Definition set_prop (l : loc) (p : string) (v : val) : M unit :=
  λ h, match h !! l with
       | Some o => (Ok (), <[l := Obj (cls o) (<[p := v]> (own o))]> h)
       | None => (Throw TypeError, h)
       end.

(** ** The class *)

(** [new ToolBuilder()]: the two field initialisers, [toolConfig = null] and
    [contextSchema = undefined]. *)
Definition fresh_builder : obj :=
  Obj CToolBuilder (<["toolConfig" := VNull]> (<["contextSchema" := VUndefined]> ∅)).

Definition new_ToolBuilder : M loc := alloc fresh_builder.

(** The message of the error that zod's [extend] throws. *)
Definition extend_error : string :=
  "Invalid input to extend: expected a plain object".

(** [cs.extend(schema)], line 26.  zod's [extend] takes a plain object of
    field schemas and throws on any other argument; what [withContext]
    passes is the schema object it received, so on a schema the call
    throws.  Anything else truthy has no such method. *)
Definition call_extend (cs : val) (schema : Schema) : M Schema :=
  match cs with
  | VSchema a => throw (Error extend_error)
  | _ => throw TypeError
  end.

(** [cs.parse(ctx)] *)
Definition call_parse (cs : val) (ctx : Ctx) : M Ctx :=
  match cs with
  | VSchema s =>
      match parse s ctx with
      | inr parsed => ret parsed
      | inl e => throw (ZodErr e)
      end
  | _ => throw TypeError
  end.

(** [withContext(schema)], lines 23-31. *)
Definition withContext (this : loc) (schema : Schema) : M loc :=
  newBuilder ← new_ToolBuilder ;
  cs ← get_prop this "contextSchema" ;
  (if truthy cs
   then merged ← call_extend cs schema ;
        set_prop newBuilder "contextSchema" (VSchema merged)
   else set_prop newBuilder "contextSchema" (VSchema schema)) ;;
  ret newBuilder.

(** [tool(config)], lines 53-59: the new builder receives the configuration,
    and the object returned is the literal [{ build: this.build }]. *)
Definition tool (this : loc) (config : ToolConfig) : M loc :=
  newBuilder ← new_ToolBuilder ;
  set_prop newBuilder "toolConfig" (val_of_config config) ;;
  b ← get_prop this "build" ;
  alloc (Obj CObject (<["build" := b]> ∅)).

(** [build(ctx)], lines 78-91.  The value of [parse] is dropped and the
    function is called on [ctx].  Should [toolConfig] hold [build] itself,
    the call re-enters [build] on the same receiver and context without
    end, which the language reports as a [RangeError]. *)
Definition build (this : loc) (ctx : Ctx) : M val :=
  tc ← get_prop this "toolConfig" ;
  if negb (truthy tc) then throw (Error "Tool not configured") else
  if typeof_function tc then
    cs ← get_prop this "contextSchema" ;
    (if truthy cs then call_parse cs ctx ;; ret () else ret ()) ;;
    match tc with
    | VFun f => ret (VTool (f ctx))
    | VBuild => throw RangeError
    | _ => throw TypeError
    end
  else ret tc.

(** The method call [recv.build(ctx)]: the property is read on [recv] and
    the function found is run with [recv] as its receiver. *)
Definition call_build (recv : loc) (ctx : Ctx) : M val :=
  m ← get_prop recv "build" ;
  match m with
  | VBuild => build recv ctx
  | VFun f => ret (VTool (f ctx))
  | _ => throw TypeError
  end.

(** ** The module *)

(** [const toolBuilder = new ToolBuilder()] on the empty store. *)
Definition toolBuilder : loc := fresh (dom (∅ : heap)).
Definition init_heap : heap := (new_ToolBuilder ∅).2.

(** [b.withContext(s1).withContext(s2)...] *)
Fixpoint withContexts (b : loc) (ss : list Schema) : M loc :=
  match ss with
  | [] => ret b
  | s :: ss' => b' ← withContext b s ; withContexts b' ss'
  end.

(** [b.withContext(s1)...withContext(sn).tool(config)] *)
Definition declare (b : loc) (ss : list Schema) (config : ToolConfig) : M loc :=
  b' ← withContexts b ss ; tool b' config.

(** [b.withContext(s1)...withContext(sn).tool(config).build(ctx)] *)
Definition chain_build (b : loc) (ss : list Schema) (config : ToolConfig)
    (ctx : Ctx) : M val :=
  handle ← declare b ss config ; call_build handle ctx.

(** ** Builder states and operations *)

(** The state of a [ToolBuilder] instance, field by field: [toolConfig] is
    [null] or a configuration, [contextSchema] is [undefined] or a schema. *)
Definition config_val (tc : option ToolConfig) : val :=
  match tc with
  | Some c => val_of_config c
  | None => VNull
  end.

Definition schema_val (cs : option Schema) : val :=
  match cs with
  | Some s => VSchema s
  | None => VUndefined
  end.

Definition builder_obj (tc : option ToolConfig) (cs : option Schema) : obj :=
  Obj CToolBuilder
    (<["toolConfig" := config_val tc]> (<["contextSchema" := schema_val cs]> ∅)).

(** The object literal returned by [tool]. *)
Definition handle_obj (b : val) : obj := Obj CObject (<["build" := b]> ∅).

(** One call on the public surface, with its receiver. *)
Inductive op :=
| OWithContext (this : loc) (schema : Schema)
| OTool (this : loc) (config : ToolConfig)
| OBuild (recv : loc) (ctx : Ctx).

(** The store an operation leaves, whatever its outcome. *)
Definition step (h : heap) (o : op) : heap :=
  match o with
  | OWithContext this schema => (withContext this schema h).2
  | OTool this config => (tool this config h).2
  | OBuild recv ctx => (call_build recv ctx h).2
  end.

Definition steps (h : heap) (ops : list op) : heap := foldl step h ops.

End Builder.

Abbreviation loc := positive (only parsing).
Abbreviation heap := (gmap positive obj) (only parsing).

(** ** A schema library to run the builder on *)

Module Zod.

(** Context values are flat records of strings and numbers. *)
Inductive jsdata :=
| JStr (s : string)
| JNum (n : Z).

Inductive ftype := TString | TNumber.

Definition has_type (v : jsdata) (t : ftype) : bool :=
  match v, t with
  | JStr _, TString | JNum _, TNumber => true
  | _, _ => false
  end.

(** [z.object({...})]: a field type per key. *)
Abbreviation shape := (gmap string ftype) (only parsing).
Abbreviation record := (gmap string jsdata) (only parsing).

(** A declared field is satisfied by a value of its type under its key. *)
Definition field_ok (ctx : record) (k : string) (t : ftype) : bool :=
  match ctx !! k with
  | Some v => has_type v t
  | None => false
  end.

(** The ZodError's issues: the keys whose value is missing or ill-typed. *)
Definition issues (s : shape) (ctx : record) : list string :=
  (filter (λ kt, ¬ field_ok ctx kt.1 kt.2) (map_to_list s)).*1.

(** Modelled from the spec: the schema component's [validate], absent from
    the repository (it is zod's [parse]).  It yields the parsed value or
    fails with the structured detail; the parsed value of an object schema
    keeps the declared keys and drops the others, as zod's objects do unless
    told otherwise. *)
Definition zparse (s : shape) (ctx : record) : list string + record :=
  match issues s ctx with
  | [] => inr (filter (λ kv, is_Some (s !! kv.1)) ctx)
  | bad => inl bad
  end.

(** A tool record, reduced to the two fields the examples tell apart. *)
Record tool_def := ToolDef { name : string; description : string }.

#[export] Instance lib : SchemaLib := {|
  Schema := shape;
  Ctx := record;
  ZodError := list string;
  Tool := tool_def;
  parse := zparse;
|}.

End Zod.

(** ** The chains of the README and of the specification's examples *)

Module Examples.
Import Zod.

(** [z.object({ apiKey: z.string() })] *)
Definition apiKeySchema : shape := {[ "apiKey" := TString ]}.
(** [z.object({ a: z.string() })] and [z.object({ a: z.number() })] *)
Definition aString : shape := {[ "a" := TString ]}.
Definition aNumber : shape := {[ "a" := TNumber ]}.

(** [{ apiKey: "k" }], [{ apiKey: "k", region: "eu" }], [{}], [{ a: 5 }],
    [{ a: "x" }] *)
Definition ctx_k : record := {[ "apiKey" := JStr "k" ]}.
Definition ctx_k_region : record :=
  <["apiKey" := JStr "k"]> (<["region" := JStr "eu"]> ∅).
Definition ctx_empty : record := ∅.
Definition ctx_a5 : record := {[ "a" := JNum 5 ]}.
Definition ctx_ax : record := {[ "a" := JStr "x" ]}.

Definition text_of (v : option jsdata) : string :=
  match v with
  | Some (JStr s) => s
  | _ => ""
  end.

(** A static tool, and two tool functions: one reads [ctx.apiKey], the
    other also reads a key [region] that no schema declares. *)
Definition greet : tool_def := ToolDef "greet" "Says hello".
Definition weather (ctx : record) : tool_def :=
  ToolDef "weather" (text_of (ctx !! "apiKey")).
Definition regional (ctx : record) : tool_def :=
  ToolDef "t" (text_of (ctx !! "region")).

(** A store in which a builder does hold both a schema and a function
    source: the state the documentation of [build] describes. *)
Definition configured : heap :=
  {[ 1%positive := builder_obj (Some (CFunction regional)) (Some apiKeySchema) ]}.

End Examples.

(** ** What the methods leave in a store, and the example module *)

Section Programs.
Context `{L : SchemaLib}.

(** The tool a configuration yields at a context value: the two [return]s
    of [build], lines 86-90. *)
Definition resolve (c : ToolConfig) (ctx : Ctx) : Tool :=
  match c with
  | CStatic d => d
  | CFunction f => f ctx
  end.

(** The objects the class ever creates: the builder of [withContext] (no
    configuration), the builder that [tool] configures (no schema), and the
    handle. *)
Inductive created : obj → Prop :=
| created_plain cs : created (builder_obj None cs)
| created_configured c : created (builder_obj (Some c) None)
| created_handle : created (handle_obj VBuild).

(** [src/index.ts]: the two [withContext] calls, the [tool] call on a
    function source (lines 5-17), and [toolExample.build(...)] (line 19).
    The two schemas, the arrow function and the context literal are what
    the schema library and the caller make of them. *)
Definition index_ts (lastName age : Schema) (source : Ctx → Tool) (ctx : Ctx)
    : M val :=
  b1 ← withContext toolBuilder lastName ;
  b2 ← withContext b1 age ;
  toolExample ← tool b2 (CFunction source) ;
  call_build toolExample ctx.

End Programs.

(** Stores holding one builder, in the states [build] tells apart. *)
Module Fixtures.
Import Zod Examples.

Definition static_store : heap :=
  {[ 1%positive := builder_obj (Some (CStatic greet)) (Some apiKeySchema) ]}.
Definition unschemed_store : heap :=
  {[ 1%positive := builder_obj (Some (CFunction weather)) None ]}.
Definition plain_store : heap :=
  {[ 1%positive := builder_obj None (Some apiKeySchema) ]}.

(** The store after [toolBuilder.withContext(z.object({ a: z.string() }))],
    which returns the builder at location 2. *)
Definition one_context_store : heap :=
  (withContext toolBuilder aString init_heap).2.

End Fixtures.

(** * Properties *)

Section BuilderFacts.
Context `{L : SchemaLib}.
Implicit Types (h : heap) (l this b : loc) (o : obj) (s : Schema)
  (cs : option Schema) (tc : option ToolConfig) (ctx : Ctx).

(** ** The store primitives *)

Lemma fresh_lookup h : h !! fresh (dom h) = None.
Proof. apply not_elem_of_dom, is_fresh. Qed.

Lemma fresh_ne h l o : h !! l = Some o → l ≠ fresh (dom h).
Proof. intros Hl ->. rewrite fresh_lookup in Hl. discriminate. Qed.

Lemma alloc_extends h o : h ⊆ <[fresh (dom h) := o]> h.
Proof. apply insert_subseteq, fresh_lookup. Qed.

Lemma realloc_extends h o o' :
  h ⊆ <[fresh (dom h) := o']> (<[fresh (dom h) := o]> h).
Proof. rewrite insert_insert_eq. apply alloc_extends. Qed.

(** Unfold the monad down to matches on the store. *)
Ltac unfold_M :=
  unfold mbind, M_bind, bind, mret, M_ret, new_ToolBuilder, call_extend,
    ret, throw, alloc, get_prop, set_prop in *.

(** The two assignments to a field of a new builder, on its own
    properties. *)
Lemma set_schema_own (v w : val) s :
  <["contextSchema" := VSchema s]>
    (<["toolConfig" := v]> (<["contextSchema" := w]> (∅ : gmap string val)))
  = <["toolConfig" := v]> (<["contextSchema" := VSchema s]> ∅).
Proof. rewrite insert_insert_ne by done. by rewrite insert_insert_eq. Qed.

Lemma set_config_own (v v' w : val) :
  <["toolConfig" := v']>
    (<["toolConfig" := v]> (<["contextSchema" := w]> (∅ : gmap string val)))
  = <["toolConfig" := v']> (<["contextSchema" := w]> ∅).
Proof. by rewrite insert_insert_eq. Qed.

Lemma read_toolConfig tc cs : read (builder_obj tc cs) "toolConfig" = config_val tc.
Proof. reflexivity. Qed.

Lemma read_contextSchema tc cs :
  read (builder_obj tc cs) "contextSchema" = schema_val cs.
Proof. reflexivity. Qed.

Lemma read_build tc cs : read (builder_obj tc cs) "build" = VBuild.
Proof. reflexivity. Qed.

Lemma read_handle_toolConfig v : read (handle_obj v) "toolConfig" = VUndefined.
Proof. reflexivity. Qed.

(** ** What each method does to the store *)

(** [withContext] on a builder that holds no schema: one allocation, a
    builder holding the schema passed and no tool configuration. *)
Lemma withContext_adopts h this tc s :
  h !! this = Some (builder_obj tc None) →
  withContext this s h
  = (Ok (fresh (dom h)), <[fresh (dom h) := builder_obj None (Some s)]> h).
Proof.
  intros Hthis. pose proof (fresh_ne _ _ _ Hthis) as Hne.
  unfold withContext, fresh_builder. unfold_M.
  rewrite lookup_insert_ne, Hthis by done.
  rewrite read_contextSchema; simpl. rewrite lookup_insert_eq; simpl.
  rewrite insert_insert_eq. unfold builder_obj. by rewrite set_schema_own.
Qed.

(** [withContext] on a builder that holds a schema: the new builder is
    allocated, then [extend] throws; no builder is returned. *)
Lemma withContext_throws h this tc a s :
  h !! this = Some (builder_obj tc (Some a)) →
  withContext this s h
  = (Throw (Error extend_error), <[fresh (dom h) := builder_obj None None]> h).
Proof.
  intros Hthis. pose proof (fresh_ne _ _ _ Hthis) as Hne.
  unfold withContext, fresh_builder. unfold_M.
  rewrite lookup_insert_ne, Hthis by done.
  by rewrite read_contextSchema.
Qed.

(** [tool] on a builder: the configured builder is allocated, then the
    handle, whose one property is the [build] function. *)
Lemma tool_run h this tc cs config :
  h !! this = Some (builder_obj tc cs) →
  let l1 := fresh (dom h) in
  let h1 := <[l1 := builder_obj (Some config) None]> h in
  tool this config h = (Ok (fresh (dom h1)), <[fresh (dom h1) := handle_obj VBuild]> h1).
Proof.
  intros Hthis. pose proof (fresh_ne _ _ _ Hthis) as Hne. simpl.
  unfold tool, fresh_builder. unfold_M.
  rewrite lookup_insert_eq; simpl. rewrite insert_insert_eq, set_config_own.
  rewrite lookup_insert_ne, Hthis by done.
  by rewrite read_build.
Qed.

(** [build] writes nothing. *)
Lemma build_store this ctx h : (build this ctx h).2 = h.
Proof.
  unfold build, call_parse. unfold_M.
  destruct (h !! this) as [o|] eqn:Ho; [|done].
  destruct (read o "toolConfig"); simpl; try done; rewrite Ho;
    destruct (read o "contextSchema"); simpl; try done;
    match goal with |- context [parse ?s ctx] => by destruct (parse s ctx) end.
Qed.

Lemma call_build_store recv ctx h : (call_build recv ctx h).2 = h.
Proof.
  unfold call_build. unfold_M.
  destruct (h !! recv) as [o|] eqn:Ho; [|done].
  destruct (read o "build"); try done.
  apply build_store.
Qed.

(** [build] with the handle as receiver: the handle has no [toolConfig]. *)
Lemma build_on_handle h recv v ctx :
  h !! recv = Some (handle_obj v) →
  build recv ctx h = (Throw (Error "Tool not configured"), h).
Proof.
  intros Hrecv. unfold build. unfold_M.
  by rewrite Hrecv, read_handle_toolConfig.
Qed.

Lemma call_build_on_handle h recv ctx :
  h !! recv = Some (handle_obj VBuild) →
  call_build recv ctx h = (Throw (Error "Tool not configured"), h).
Proof.
  intros Hrecv. unfold call_build. unfold_M. rewrite Hrecv.
  change (read (handle_obj VBuild) "build") with VBuild; cbv iota beta.
  by apply build_on_handle with (v := VBuild).
Qed.

(** [build] on a builder, by the state it holds. *)
Lemma build_run h this tc cs ctx :
  h !! this = Some (builder_obj tc cs) →
  build this ctx h
  = (match tc with
     | None => Throw (Error "Tool not configured")
     | Some (CStatic d) => Ok (VTool d)
     | Some (CFunction f) =>
         match cs with
         | None => Ok (VTool (f ctx))
         | Some s =>
             match parse s ctx with
             | inr _ => Ok (VTool (f ctx))
             | inl e => Throw (ZodErr e)
             end
         end
     end, h).
Proof.
  intros Hthis. unfold build, call_parse. unfold_M.
  rewrite Hthis, read_toolConfig.
  destruct tc as [[d|f]|]; simpl; try done.
  rewrite Hthis, read_contextSchema.
  destruct cs as [s|]; simpl; [|done].
  by destruct (parse s ctx).
Qed.

(** ** Existing objects are never written *)

Lemma withContext_extends this s h : h ⊆ (withContext this s h).2.
Proof.
  unfold withContext. unfold_M.
  repeat (case_match; simplify_eq; simpl);
    first [apply alloc_extends | apply realloc_extends | idtac].
  all: rewrite lookup_insert_eq in *; simplify_eq.
Qed.

Lemma tool_extends this config h : h ⊆ (tool this config h).2.
Proof.
  unfold tool. unfold_M.
  repeat (case_match; simplify_eq; simpl);
    try (rewrite lookup_insert_eq in *; simplify_eq);
    first [ apply alloc_extends | apply realloc_extends
          | etrans; [apply realloc_extends | apply alloc_extends] ].
Qed.

Lemma step_extends h (o : op) : h ⊆ step h o.
Proof.
  destruct o; simpl.
  - apply withContext_extends.
  - apply tool_extends.
  - by rewrite call_build_store.
Qed.

Lemma steps_extends (ops : list op) h : h ⊆ steps h ops.
Proof.
  revert h. induction ops as [|o ops IH]; intros h; simpl; [done|].
  etrans; [apply step_extends | apply IH].
Qed.

Lemma steps_lookup (ops : list op) h l o :
  h !! l = Some o → steps h ops !! l = Some o.
Proof. intros Hl. by eapply lookup_weaken, steps_extends. Qed.

(** Whatever the receiver, [withContext] adds one builder without tool
    configuration to the store, and the builder it returns, if it returns,
    is that one. *)
Lemma withContext_result this s h :
  ∃ cs', (withContext this s h).2 = <[fresh (dom h) := builder_obj None cs']> h
         ∧ ∀ b', (withContext this s h).1 = Ok b' → b' = fresh (dom h).
Proof.
  unfold withContext, fresh_builder. unfold_M.
  destruct (<[fresh (dom h) := _]> h !! this) as [o|] eqn:Ho; simpl;
    [|by exists None].
  destruct (read o "contextSchema") as [| |a| | |]; simpl;
    rewrite ?lookup_insert_eq; simpl; rewrite ?insert_insert_eq;
    rewrite ?set_schema_own.
  1-2: exists (Some s); split; [reflexivity | by intros b' [= <-]].
  all: exists None; split; [reflexivity | done].
Qed.

(** ** Chains *)

(** A chain of at most one [withContext] call on a builder that holds
    nothing returns a builder without tool configuration. *)
Lemma withContexts_short (ss : list Schema) h b :
  length ss ≤ 1 →
  h !! b = Some (builder_obj None None) →
  ∃ b' h', withContexts b ss h = (Ok b', h') ∧ h ⊆ h'
           ∧ h' !! b' = Some (builder_obj None (head ss)).
Proof.
  intros Hlen Hb. destruct ss as [|s [|s' ss]]; simpl in Hlen; [| |lia].
  - by exists b, h.
  - eexists _, _. split_and!.
    + simpl. unfold mbind, M_bind, bind.
      by rewrite (withContext_adopts _ _ _ s Hb).
    + apply alloc_extends.
    + apply lookup_insert_eq.
Qed.

(** A chain of two or more [withContext] calls throws at its second call. *)
Lemma withContexts_long (s1 s2 : Schema) (ss : list Schema) h b :
  h !! b = Some (builder_obj None None) →
  ∃ h', withContexts b (s1 :: s2 :: ss) h = (Throw (Error extend_error), h')
        ∧ h ⊆ h'.
Proof.
  intros Hb. eexists. split.
  - simpl. unfold mbind, M_bind, bind.
    rewrite (withContext_adopts _ _ _ s1 Hb).
    by rewrite (withContext_throws _ _ None s1 s2 (lookup_insert_eq _ _ _)).
  - etrans; apply alloc_extends.
Qed.

(** What [tool] returns at the end of a short chain: a handle whose one
    property is the [build] function. *)
Lemma declare_run (ss : list Schema) h b config :
  length ss ≤ 1 →
  h !! b = Some (builder_obj None None) →
  ∃ hd h', declare b ss config h = (Ok hd, h') ∧ h ⊆ h' ∧
    h' !! hd = Some (handle_obj VBuild).
Proof.
  intros Hlen Hb.
  destruct (withContexts_short ss _ _ Hlen Hb) as (b' & h1 & Hrun & Hsub & Hb').
  pose proof (tool_run _ _ _ _ config Hb') as Htool; simpl in Htool.
  eexists _, _. split_and!.
  - unfold declare, mbind, M_bind, bind. rewrite Hrun. exact Htool.
  - etrans; [exact Hsub|]. etrans; apply alloc_extends.
  - apply lookup_insert_eq.
Qed.

(** The handle of a short chain, built: the receiver of [build] is the
    handle, and the handle holds no configuration. *)
Lemma chain_build_run (ss : list Schema) h b config ctx :
  length ss ≤ 1 →
  h !! b = Some (builder_obj None None) →
  ∃ h', chain_build b ss config ctx h = (Throw (Error "Tool not configured"), h').
Proof.
  intros Hlen Hb.
  destruct (declare_run ss _ _ config Hlen Hb) as (hd & h' & Hrun & _ & Hhd).
  exists h'. unfold chain_build, mbind, M_bind, bind. rewrite Hrun.
  by apply call_build_on_handle.
Qed.

(** A longer chain never reaches [tool]. *)
Lemma chain_build_long (s1 s2 : Schema) (ss : list Schema) h b config ctx :
  h !! b = Some (builder_obj None None) →
  ∃ h', chain_build b (s1 :: s2 :: ss) config ctx h
        = (Throw (Error extend_error), h').
Proof.
  intros Hb. destruct (withContexts_long s1 s2 ss _ _ Hb) as (h' & Hrun & _).
  exists h'. unfold chain_build, declare, mbind, M_bind, bind. by rewrite Hrun.
Qed.

(** [b.build(ctx)] on a builder runs [build] with the builder as receiver. *)
Lemma call_build_on_builder h b tc cs ctx :
  h !! b = Some (builder_obj tc cs) → call_build b ctx h = build b ctx h.
Proof.
  intros Hb. unfold call_build. unfold_M. by rewrite Hb, read_build.
Qed.

Lemma init_heap_root : init_heap !! toolBuilder = Some (builder_obj None None).
Proof. apply lookup_insert_eq. Qed.

Lemma root_chain_throws (ss : list Schema) config ctx :
  length ss ≤ 1 →
  (chain_build toolBuilder ss config ctx init_heap).1
  = Throw (Error "Tool not configured").
Proof.
  intros Hlen.
  by destruct (chain_build_run ss _ _ config ctx Hlen init_heap_root) as [h' ->].
Qed.

(** [build] called on a builder of the root's chain, no [tool] call made. *)
Lemma root_builder_build_throws (ss : list Schema) ctx :
  length ss ≤ 1 →
  ((b ← withContexts toolBuilder ss; call_build b ctx) init_heap).1
  = Throw (Error "Tool not configured").
Proof.
  intros Hlen.
  destruct (withContexts_short ss _ _ Hlen init_heap_root)
    as (b' & h' & Hrun & _ & Hb').
  unfold mbind, M_bind, bind. rewrite Hrun.
  by rewrite (call_build_on_builder _ _ _ _ _ Hb'), (build_run _ _ _ _ _ Hb').
Qed.

Lemma root_long_withContexts_throw (s1 s2 : Schema) (ss : list Schema) :
  (withContexts toolBuilder (s1 :: s2 :: ss) init_heap).1
  = Throw (Error extend_error).
Proof.
  by destruct (withContexts_long s1 s2 ss _ _ init_heap_root) as (h' & -> & _).
Qed.

Lemma root_long_chain_throws (s1 s2 : Schema) (ss : list Schema) config ctx :
  (chain_build toolBuilder (s1 :: s2 :: ss) config ctx init_heap).1
  = Throw (Error extend_error).
Proof.
  by destruct (chain_build_long s1 s2 ss _ _ config ctx init_heap_root)
    as [h' ->].
Qed.

(** The exported instance stays as it was loaded, whatever is run. *)
Lemma root_stable (ops : list op) :
  steps init_heap ops !! toolBuilder = Some (builder_obj None None).
Proof. apply steps_lookup, init_heap_root. Qed.

(** ** Properties that hold for every schema library *)

(** [build] on a builder that holds a function source [f] and a context
    schema [s] which accepts [ctx]: the result is [f] applied to [ctx] as it
    was given, the value that [parse] returns is dropped. *)
Lemma build_function_source_valid_ctx h this f s ctx parsed :
  h !! this = Some (builder_obj (Some (CFunction f)) (Some s)) →
  parse s ctx = inr parsed →
  build this ctx h = (Ok (VTool (f ctx)), h)
  ∧ call_build this ctx h = (Ok (VTool (f ctx)), h).
Proof.
  intros Hthis Hparse.
  assert (build this ctx h = (Ok (VTool (f ctx)), h)) as Hbuild.
  { rewrite (build_run _ _ _ _ _ Hthis). by rewrite Hparse. }
  split; [done|]. by rewrite (call_build_on_builder _ _ _ _ _ Hthis).
Qed.


(** C8.  [withContext] on a builder that already holds a context schema
    returns no builder: it throws the error of [extend].  Nothing the store
    held is changed by the call, the receiver included. *)
Theorem withContext_on_schema_holder_throws h b tc a s :
  h !! b = Some (builder_obj tc (Some a)) →
  ∃ h', withContext b s h = (Throw (Error extend_error), h')
        ∧ h ⊆ h'
        ∧ h' !! b = Some (builder_obj tc (Some a)).
Proof.
  intros Hb. eexists. split_and!.
  - by apply withContext_throws with (tc := tc) (a := a).
  - apply alloc_extends.
  - eapply lookup_weaken; [exact Hb | apply alloc_extends].
Qed.

(** C9.  [build] writes nothing: whatever the receiver and the context
    value, and whether it returns or throws, the store after the call is the
    store before it, so no [contextSchema] and no [toolConfig] changes; a
    second call, with another context value, does what it would have done
    as the first. *)
Theorem build_leaves_store recv ctx1 ctx2 h :
  (build recv ctx1 h).2 = h
  ∧ (call_build recv ctx1 h).2 = h
  ∧ build recv ctx2 (build recv ctx1 h).2 = build recv ctx2 h
  ∧ call_build recv ctx2 (call_build recv ctx1 h).2 = call_build recv ctx2 h.
Proof.
  split_and!.
  - apply build_store.
  - apply call_build_store.
  - by rewrite build_store.
  - by rewrite call_build_store.
Qed.

Lemma withContexts_result (ss : list Schema) h b b' h' :
  ss ≠ [] →
  withContexts b ss h = (Ok b', h') →
  ∃ cs', h' !! b' = Some (builder_obj None cs').
Proof.
  revert h b. induction ss as [|s ss IH]; intros h b Hne Hrun; [done|].
  simpl in Hrun. unfold mbind, M_bind, bind in Hrun.
  destruct (withContext_result b s h) as (cs1 & Hstore & Hloc).
  destruct (withContext b s h) as [[b1|e] h1] eqn:Hstep; [|done].
  simpl in Hstore, Hloc. rewrite (Hloc b1 eq_refl) in Hrun. subst h1.
  destruct ss as [|s' ss].
  - injection Hrun as <- <-. exists cs1. apply lookup_insert_eq.
  - by apply (IH _ _ ltac:(done) Hrun).
Qed.

(** C10.  A builder made by [withContext] has no tool source.  Whenever
    [withContext] returns, on any receiver and whatever the receiver's
    [toolConfig], the builder returned holds [toolConfig = null]; so does
    every builder that a chain of [withContext] calls from the exported
    [toolBuilder] returns, whatever ran on the store before; and on the
    exported [toolBuilder] the call does return. *)
Theorem withContext_tool_source_absent :
  (∀ h b s b' h',
     withContext b s h = (Ok b', h') →
     ∃ o, h' !! b' = Some o ∧ read o "toolConfig" = VNull)
  ∧ (∀ (ops : list op) (ss : list Schema) b' h',
       withContexts toolBuilder ss (steps init_heap ops) = (Ok b', h') →
       ∃ o, h' !! b' = Some o ∧ read o "toolConfig" = VNull)
  ∧ (∀ (ops : list op) s,
       ∃ b' h', withContext toolBuilder s (steps init_heap ops) = (Ok b', h')).
Proof.
  split_and!.
  - intros h b s b' h' Hrun.
    destruct (withContext_result b s h) as (cs' & Hstore & Hloc).
    rewrite Hrun in Hstore, Hloc; simpl in Hstore, Hloc.
    rewrite (Hloc b' eq_refl), Hstore. eexists. split; [apply lookup_insert_eq|].
    reflexivity.
  - intros ops ss b' h' Hrun. destruct ss as [|s ss].
    + injection Hrun as <- <-. eexists. split; [apply root_stable | reflexivity].
    + destruct (withContexts_result (s :: ss) _ _ _ _ ltac:(done) Hrun)
        as [cs' Hb'].
      eexists. split; [exact Hb' | reflexivity].
  - intros ops s. eexists _, _.
    apply (withContext_adopts _ _ _ s (root_stable ops)).
Qed.

End BuilderFacts.

(** ** The chains of the documentation, run *)

Section Chains.
Import Zod Examples Fixtures.

(** What the schema library does on the example values. *)
Lemma parse_apiKey_k : parse apiKeySchema ctx_k = inr ctx_k.
Proof. vm_compute. reflexivity. Qed.

Lemma parse_apiKey_k_region : parse apiKeySchema ctx_k_region = inr ctx_k.
Proof. vm_compute. reflexivity. Qed.

Lemma parse_apiKey_empty : parse apiKeySchema ctx_empty = inl ["apiKey"].
Proof. vm_compute. reflexivity. Qed.

Lemma parse_aNumber :
  parse aNumber ctx_a5 = inr ctx_a5 ∧ parse aNumber ctx_ax = inl ["a"].
Proof. split; vm_compute; reflexivity. Qed.

(** A schema accepts a value when every declared field is satisfied. *)
Lemma zparse_accepts (s : gmap string ftype) (ctx : gmap string jsdata) :
  (∃ v, zparse s ctx = inr v) ↔ ∀ k t, s !! k = Some t → field_ok ctx k t = true.
Proof.
  unfold zparse, issues.
  destruct (filter _ (map_to_list s)) as [|x bad] eqn:Hbad; simpl.
  - split; [|by eauto]. intros _ k t Hk.
    destruct (field_ok ctx k t) eqn:Hok; [done|]. exfalso.
    eapply (filter_nil_not_elem_of _ _ (k, t) Hbad).
    + simpl. rewrite Hok. by intros [].
    + by apply elem_of_map_to_list.
  - split; [by intros [v [=]]|]. intros Hall. exfalso.
    assert (x ∈ x :: bad) as Hx by left.
    rewrite <- Hbad in Hx. apply list_elem_of_filter in Hx as [Hno Hin].
    destruct x as [k t]. apply elem_of_map_to_list in Hin.
    simpl in Hno. by rewrite (Hall _ _ Hin) in Hno.
Qed.

(** C1.  The chain [toolBuilder.withContext({apiKey: string})
    .tool(weather).build({apiKey: "k"})]: the schema accepts the context
    value and parses it to [{apiKey: "k"}], yet the chain throws "Tool not
    configured" and does not return the tool function's result on it. *)
Theorem function_source_chain_throws :
  parse apiKeySchema ctx_k = inr ctx_k
  ∧ (chain_build toolBuilder [apiKeySchema] (CFunction weather) ctx_k
       init_heap).1
    = Throw (Error "Tool not configured")
  ∧ (chain_build toolBuilder [apiKeySchema] (CFunction weather) ctx_k
       init_heap).1
    ≠ Ok (VTool (weather ctx_k)).
Proof.
  rewrite root_chain_throws by (simpl; lia).
  split_and!; [apply parse_apiKey_k|done..].
Qed.



Lemma withContext_on_schema_holder_throws_witness :
  ∃ h', withContext 2%positive aNumber one_context_store
        = (Throw (Error extend_error), h')
        ∧ one_context_store ⊆ h'
        ∧ h' !! 2%positive = Some (builder_obj None (Some aString)).
Proof.
  apply (withContext_on_schema_holder_throws (L := lib) one_context_store
           2%positive None aString aNumber).
  reflexivity.
Defined.

Lemma withContext_tool_source_absent_witness :
  ∃ o, one_context_store !! 2%positive = Some o ∧ read o "toolConfig" = VNull.
Proof.
  apply (proj1 (withContext_tool_source_absent (L := lib)) init_heap toolBuilder
           aString 2%positive one_context_store).
  reflexivity.
Defined.

(** C3.  The chain [toolBuilder.withContext({apiKey: string}).tool(greet)
    .build({})], and the README's [toolBuilder.tool(greet).build({})]: both
    throw "Tool not configured", neither returns [greet]. *)
Theorem static_source_chain_throws :
  (chain_build toolBuilder [apiKeySchema] (CStatic greet) ctx_empty init_heap).1
  = Throw (Error "Tool not configured")
  ∧ (chain_build toolBuilder [] (CStatic greet) ctx_empty init_heap).1
    = Throw (Error "Tool not configured")
  ∧ (chain_build toolBuilder [] (CStatic greet) ctx_empty init_heap).1
    ≠ Ok (VTool greet).
Proof. rewrite !root_chain_throws by (simpl; lia). by split_and!. Qed.

(** C4.  The README's chain [toolBuilder.withContext({apiKey: string})
    .tool(weather).build({apiKey: "k"})] throws "Tool not configured" though
    a source was declared, the same error as [build] on the builder of
    [toolBuilder.withContext({apiKey: string})], on which none was. *)
Theorem declared_chain_throws_not_configured :
  (chain_build toolBuilder [apiKeySchema] (CFunction weather) ctx_k init_heap).1
  = Throw (Error "Tool not configured")
  ∧ ((b ← withContexts toolBuilder [apiKeySchema]; call_build b ctx_k)
       init_heap).1
    = Throw (Error "Tool not configured").
Proof.
  split; [apply root_chain_throws | apply root_builder_build_throws];
    simpl; lia.
Qed.

(** C5.  [toolBuilder.withContext({apiKey: string}).tool(weather).build({})]:
    the schema rejects [{}] with the issue on [apiKey], yet the chain throws
    "Tool not configured", which is no validation error. *)
Theorem invalid_ctx_chain_throws_not_configured :
  parse apiKeySchema ctx_empty = inl ["apiKey"]
  ∧ (chain_build toolBuilder [apiKeySchema] (CFunction weather) ctx_empty
       init_heap).1
    = Throw (Error "Tool not configured")
  ∧ (chain_build toolBuilder [apiKeySchema] (CFunction weather) ctx_empty
       init_heap).1
    ≠ Throw (ZodErr ["apiKey"]).
Proof.
  rewrite root_chain_throws by (simpl; lia).
  split_and!; [apply parse_apiKey_empty|done..].
Qed.

(** C6.  [toolBuilder.withContext({a: string})] returns a builder that
    holds [{a: string}], the fragment adopted as it is.  The second call,
    [.withContext({a: number})], throws the error of [extend] and returns no
    builder, so the chain followed by [.tool(weather).build(...)] ends in
    that error for [{a: 5}] and for [{a: "x"}] alike: no schema is merged,
    no context value is validated. *)
Theorem second_withContext_throws :
  (∃ b h, withContexts toolBuilder [aString] init_heap = (Ok b, h)
     ∧ h !! b = Some (builder_obj None (Some aString)))
  ∧ (withContexts toolBuilder [aString; aNumber] init_heap).1
    = Throw (Error "Invalid input to extend: expected a plain object")
  ∧ (chain_build toolBuilder [aString; aNumber] (CFunction weather) ctx_a5
       init_heap).1
    = Throw (Error "Invalid input to extend: expected a plain object")
  ∧ (chain_build toolBuilder [aString; aNumber] (CFunction weather) ctx_ax
       init_heap).1
    = Throw (Error "Invalid input to extend: expected a plain object").
Proof.
  split_and!.
  - destruct (withContexts_short (L := lib) [aString] init_heap toolBuilder
                ltac:(simpl; lia) init_heap_root) as (b & h & Hrun & _ & Hb).
    by exists b, h.
  - exact (root_long_withContexts_throw (L := lib) aString aNumber []).
  - exact (root_long_chain_throws (L := lib) aString aNumber []
             (@CFunction lib weather) ctx_a5).
  - exact (root_long_chain_throws (L := lib) aString aNumber []
             (@CFunction lib weather) ctx_ax).
Qed.

(** C7.  [toolBuilder.tool(weather).build({})], no schema declared: the
    chain throws "Tool not configured" and does not return [weather {}]. *)
Theorem no_context_chain_throws :
  (chain_build toolBuilder [] (CFunction weather) ctx_empty init_heap).1
  = Throw (Error "Tool not configured")
  ∧ (chain_build toolBuilder [] (CFunction weather) ctx_empty init_heap).1
    ≠ Ok (VTool (weather ctx_empty)).
Proof. rewrite root_chain_throws by (simpl; lia). by split. Qed.

End Chains.

(** * Further properties of the three methods *)

Section Methods.
Context `{L : SchemaLib}.
Implicit Types (h : heap) (l this b : loc) (o : obj) (s : Schema)
  (cs : option Schema) (tc : option ToolConfig) (ctx : Ctx).

Ltac unfold_store :=
  unfold mbind, M_bind, bind, mret, M_ret, new_ToolBuilder, call_extend,
    ret, throw, alloc, get_prop, set_prop in *.

(** ** [withContext] *)

(** X1.  On a builder that holds no context schema, whatever its
    [toolConfig], [withContext(schema)] returns: the result is one new
    object, a builder without tool configuration whose schema is [schema]
    as passed. *)
Theorem withContext_adopts_first_schema h b tc s :
  h !! b = Some (builder_obj tc None) →
  ∃ b' h',
    withContext b s h = (Ok b', h')
    ∧ (b' ∉ dom h) ∧ dom h' = dom h ∪ {[b']}
    ∧ h' !! b' = Some (builder_obj None (Some s)).
Proof.
  intros Hb. eexists _, _. split_and!.
  - by apply withContext_adopts with (tc := tc).
  - apply is_fresh.
  - rewrite dom_insert_L. apply union_comm_L.
  - by rewrite lookup_insert_eq.
Qed.

(** X2.  Whatever ran before, [toolBuilder.withContext(s1)] returns a
    builder holding [s1], and every chain [toolBuilder.withContext(s1)
    .withContext(s2)...] of two or more calls throws the error of [extend]
    at its second call: the chain of the method's own example never
    yields a builder. *)
Theorem withContext_chain_throws_at_second (ops : list op) s1 s2
    (ss : list Schema) :
  (∃ b h',
     withContexts toolBuilder [s1] (steps init_heap ops) = (Ok b, h')
     ∧ h' !! b = Some (builder_obj None (Some s1)))
  ∧ ∃ h',
      withContexts toolBuilder (s1 :: s2 :: ss) (steps init_heap ops)
      = (Throw (Error "Invalid input to extend: expected a plain object"), h').
Proof.
  split.
  - destruct (withContexts_short [s1] _ _ ltac:(simpl; lia) (root_stable ops))
      as (b & h' & Hrun & _ & Hb).
    by exists b, h'.
  - destruct (withContexts_long s1 s2 ss _ _ (root_stable ops))
      as (h' & Hrun & _).
    by exists h'.
Qed.

(** A chain can be cut anywhere: running the first calls, keeping the
    builder they return and running the remaining calls on it gives the
    outcome and the store of the whole chain, also when a call throws. *)
Lemma withContexts_app b (ss1 ss2 : list Schema) h :
  withContexts b (ss1 ++ ss2) h
  = (b' ← withContexts b ss1; withContexts b' ss2) h.
Proof.
  revert b h. induction ss1 as [|s ss1 IH]; intros b h; [done|].
  simpl. unfold mbind, M_bind, bind in *.
  destruct (withContext b s h) as [[b'|e] h1]; [|done].
  apply IH.
Qed.

(** ** [tool] *)

(** X3.  On a builder, whatever it holds, [tool(config)] returns and changes
    no existing object.  It creates two objects: a builder that holds
    [config] and no context schema (the receiver's schema is not carried
    over), and the handle it returns, whose content is the [build] function
    alone, the same for every receiver and every [config]. *)
Theorem tool_creates_builder_and_handle h b tc cs config :
  h !! b = Some (builder_obj tc cs) →
  ∃ l hd h',
    tool b config h = (Ok hd, h')
    ∧ h ⊆ h' ∧ dom h' = dom h ∪ {[l; hd]}
    ∧ (l ∉ dom h) ∧ (hd ∉ dom h) ∧ l ≠ hd
    ∧ h' !! l = Some (builder_obj (Some config) None)
    ∧ h' !! hd = Some (handle_obj VBuild).
Proof.
  intros Hb. pose proof (tool_run _ _ _ _ config Hb) as Hrun; simpl in Hrun.
  set (l := fresh (dom h)) in *.
  set (h1 := <[l := builder_obj (Some config) None]> h) in *.
  set (hd := fresh (dom h1)) in *.
  assert (h1 !! hd = None) as Hhd by apply fresh_lookup.
  assert (h1 !! l = Some (builder_obj (Some config) None)) as Hl
    by apply lookup_insert_eq.
  assert (l ≠ hd) as Hne by (by eapply fresh_ne).
  exists l, hd, (<[hd := handle_obj VBuild]> h1). split_and!; try done.
  - etrans; apply alloc_extends.
  - unfold h1. rewrite !dom_insert_L. apply set_eq. intros x.
    rewrite !elem_of_union, !elem_of_singleton. tauto.
  - apply is_fresh.
  - apply not_elem_of_dom. eapply lookup_weaken_None; [exact Hhd|].
    apply alloc_extends.
  - by rewrite lookup_insert_ne.
  - apply lookup_insert_eq.
Qed.

(** X4.  The builder that [tool] configures never validates: run with it as
    receiver, [build] returns the static tool, or the function applied to
    the context value, for every context value and whatever schema the
    chain had accumulated. *)
Theorem tool_builder_builds_unvalidated h b tc cs config ctx :
  h !! b = Some (builder_obj tc cs) →
  ∃ l hd h',
    tool b config h = (Ok hd, h')
    ∧ h' !! l = Some (builder_obj (Some config) None)
    ∧ build l ctx h' = (Ok (VTool (resolve config ctx)), h').
Proof.
  intros Hb. pose proof (tool_run _ _ _ _ config Hb) as Hrun; simpl in Hrun.
  set (l := fresh (dom h)) in *.
  set (h1 := <[l := builder_obj (Some config) None]> h) in *.
  assert (h1 !! l = Some (builder_obj (Some config) None)) as Hl
    by apply lookup_insert_eq.
  assert (<[fresh (dom h1) := handle_obj VBuild]> h1 !! l
          = Some (builder_obj (Some config) None)) as Hl'.
  { rewrite lookup_insert_ne; [done|]. apply not_eq_sym. by eapply fresh_ne. }
  eexists l, _, _. split_and!; [exact Hrun | exact Hl' |].
  rewrite (build_run _ _ _ _ _ Hl'). by destruct config.
Qed.

(** ** [build] on a builder *)

(** X5.  [build] on a builder that holds a static tool returns that tool for
    every context value, whatever schema the builder holds: the schema is
    not consulted, so a context value it rejects is returned for as well. *)
Theorem build_static_unvalidated h this d cs ctx :
  h !! this = Some (builder_obj (Some (CStatic d)) cs) →
  build this ctx h = (Ok (VTool d), h).
Proof. intros Hthis. by rewrite (build_run _ _ _ _ _ Hthis). Qed.

(** X6.  [build] on a builder that holds a function source and no schema
    returns the function applied to the context value, for every context
    value. *)
Theorem build_function_without_schema h this f ctx :
  h !! this = Some (builder_obj (Some (CFunction f)) None) →
  build this ctx h = (Ok (VTool (f ctx)), h).
Proof. intros Hthis. by rewrite (build_run _ _ _ _ _ Hthis). Qed.

(** X7.  [build] on a builder that holds a function source and a schema
    which rejects the context value throws the error of [parse] itself, as
    it is, returns no tool and leaves the store as it was. *)
Theorem build_rejects_invalid_ctx h this f s ctx e :
  h !! this = Some (builder_obj (Some (CFunction f)) (Some s)) →
  parse s ctx = inl e →
  build this ctx h = (Throw (ZodErr e), h).
Proof.
  intros Hthis Hparse. rewrite (build_run _ _ _ _ _ Hthis). by rewrite Hparse.
Qed.

(** X8.  The configuration is checked first: [build] on a builder without
    tool configuration throws "Tool not configured" for every context value
    and whatever schema it holds, and so do [toolBuilder.build(ctx)] and
    [toolBuilder.withContext(s).build(ctx)], whatever ran before. *)
Theorem build_unconfigured_throws :
  (∀ h this cs ctx,
     h !! this = Some (builder_obj None cs) →
     build this ctx h = (Throw (Error "Tool not configured"), h))
  ∧ (∀ (ops : list op) ctx,
       call_build toolBuilder ctx (steps init_heap ops)
       = (Throw (Error "Tool not configured"), steps init_heap ops))
  ∧ (∀ (ops : list op) s ctx,
       ∃ h', (b ← withContext toolBuilder s; call_build b ctx)
               (steps init_heap ops)
             = (Throw (Error "Tool not configured"), h')).
Proof.
  split_and!.
  - intros h this cs ctx Hthis. by rewrite (build_run _ _ _ _ _ Hthis).
  - intros ops ctx. pose proof (root_stable ops) as Hroot.
    by rewrite (call_build_on_builder _ _ _ _ _ Hroot),
      (build_run _ _ _ _ _ Hroot).
  - intros ops s ctx. eexists.
    unfold mbind, M_bind, bind.
    rewrite (withContext_adopts _ _ _ s (root_stable ops)).
    assert (<[fresh (dom (steps init_heap ops))
              := builder_obj None (Some s)]> (steps init_heap ops)
            !! fresh (dom (steps init_heap ops))
            = Some (builder_obj None (Some s))) as Hb
      by apply lookup_insert_eq.
    by rewrite (call_build_on_builder _ _ _ _ _ Hb), (build_run _ _ _ _ _ Hb).
Qed.

(** ** Every store the three methods can produce *)

(** X9.  No sequence of [withContext], [tool] and [build] calls, on any
    receivers and whether they return or throw, changes or removes an
    object that the store already holds: every location keeps the object
    it had. *)
Theorem operations_keep_existing_objects (ops : list op) h :
  h ⊆ steps h ops ∧ dom h ⊆ dom (steps h ops).
Proof.
  split; [apply steps_extends | apply subseteq_dom, steps_extends].
Qed.

Lemma created_read_build o : created o → read o "build" = VBuild.
Proof. by intros []. Qed.

Lemma created_insert h l o :
  (∀ l' o', h !! l' = Some o' → created o') → created o →
  ∀ l' o', <[l := o]> h !! l' = Some o' → created o'.
Proof.
  intros Hwf Ho l' o'. rewrite lookup_insert.
  case_decide; [by intros [= <-] | apply Hwf].
Qed.

(** Whatever the receiver, [withContext] adds one builder without
    configuration and nothing else. *)
Lemma withContext_store this s h :
  ∃ cs', (withContext this s h).2
         = <[fresh (dom h) := builder_obj None cs']> h.
Proof.
  destruct (withContext_result this s h) as (cs' & Hstore & _). by exists cs'.
Qed.

(** On a store of created objects, [tool] adds the configured builder and,
    when its receiver exists, the handle. *)
Lemma tool_store this config h :
  (∀ l o, h !! l = Some o → created o) →
  let h1 := <[fresh (dom h) := builder_obj (Some config) None]> h in
  (tool this config h).2 = h1
  ∨ (tool this config h).2 = <[fresh (dom h1) := handle_obj VBuild]> h1.
Proof.
  intros Hwf; simpl. unfold tool, fresh_builder. unfold_store.
  rewrite lookup_insert_eq; simpl. rewrite insert_insert_eq, set_config_own.
  change (Obj CToolBuilder
            (<["toolConfig" := val_of_config config]>
               (<["contextSchema" := VUndefined]> ∅)))
    with (builder_obj (Some config) None).
  destruct (<[fresh (dom h) := _]> h !! this) as [o|] eqn:Ho; simpl;
    [|by left].
  right. rewrite (created_read_build o); [done|].
  eapply created_insert; [exact Hwf | apply created_configured | exact Ho].
Qed.

Lemma step_created h (o : op) :
  (∀ l o', h !! l = Some o' → created o') →
  ∀ l o', step h o !! l = Some o' → created o'.
Proof.
  intros Hwf. destruct o as [this s|this config|recv ctx]; simpl.
  - destruct (withContext_store this s h) as [cs' ->].
    by apply created_insert; [|apply created_plain].
  - destruct (tool_store this config h Hwf) as [-> | ->].
    + by apply created_insert; [|apply created_configured].
    + apply created_insert; [|apply created_handle].
      by apply created_insert; [|apply created_configured].
  - by rewrite call_build_store.
Qed.

Lemma steps_created (ops : list op) h :
  (∀ l o, h !! l = Some o → created o) →
  ∀ l o, steps h ops !! l = Some o → created o.
Proof.
  revert h. induction ops as [|o ops IH]; intros h Hwf; [done|].
  simpl. apply IH. by apply step_created.
Qed.

Lemma init_heap_created l o : init_heap !! l = Some o → created o.
Proof.
  unfold init_heap; simpl. rewrite lookup_insert.
  case_decide; [|by rewrite lookup_empty].
  intros [= <-]. apply (created_plain None).
Qed.

Lemma created_fields o :
  created o →
  truthy (read o "toolConfig") = false ∨ truthy (read o "contextSchema") = false.
Proof. intros [cs|c|]; [left|right|left]; reflexivity. Qed.

(** X10.  After any sequence of calls of the three methods, on any
    receivers, every object of the store is a builder without tool
    configuration, a builder with a configuration and no schema, or a
    handle: on no object are [toolConfig] and [contextSchema] both set. *)
Theorem no_builder_holds_schema_and_config (ops : list op) l o :
  steps init_heap ops !! l = Some o →
  created o
  ∧ (truthy (read o "toolConfig") = false
     ∨ truthy (read o "contextSchema") = false).
Proof.
  intros Hl.
  assert (created o) as Ho
    by (eapply steps_created; [apply init_heap_created | exact Hl]).
  split; [done | by apply created_fields].
Qed.

(** X11.  Validation is never reached: after any sequence of calls of the
    three methods, [build] run on any receiver with any context value either
    finds no object, or throws "Tool not configured", or returns the tool of
    a builder that [tool] configured, unvalidated.  It never throws a
    validation error; neither does [recv.build(ctx)]. *)
Theorem build_never_validates (ops : list op) recv ctx :
  (build recv ctx (steps init_heap ops) = (Throw TypeError, steps init_heap ops)
   ∨ build recv ctx (steps init_heap ops)
     = (Throw (Error "Tool not configured"), steps init_heap ops)
   ∨ ∃ c, steps init_heap ops !! recv = Some (builder_obj (Some c) None)
          ∧ build recv ctx (steps init_heap ops)
            = (Ok (VTool (resolve c ctx)), steps init_heap ops))
  ∧ (∀ e, (build recv ctx (steps init_heap ops)).1 ≠ Throw (ZodErr e))
  ∧ (∀ e, (call_build recv ctx (steps init_heap ops)).1 ≠ Throw (ZodErr e)).
Proof.
  set (h := steps init_heap ops).
  assert (build recv ctx h = (Throw TypeError, h)
          ∨ build recv ctx h = (Throw (Error "Tool not configured"), h)
          ∨ ∃ c, h !! recv = Some (builder_obj (Some c) None)
                 ∧ build recv ctx h = (Ok (VTool (resolve c ctx)), h)) as Hcases.
  { destruct (h !! recv) as [o|] eqn:Hrecv.
    - pose proof (steps_created ops init_heap init_heap_created _ _ Hrecv) as Ho.
      destruct Ho as [cs|c|].
      + right; left. by rewrite (build_run _ _ _ _ _ Hrecv).
      + right; right. exists c. split; [done|].
        rewrite (build_run _ _ _ _ _ Hrecv). by destruct c.
      + right; left. by eapply build_on_handle.
    - left. unfold build. unfold_store. by rewrite Hrecv. }
  assert (∀ e, (build recv ctx h).1 ≠ Throw (ZodErr e)) as Hbuild.
  { intros e. destruct Hcases as [-> | [-> | (c & _ & ->)]]; simpl; congruence. }
  split_and!; [exact Hcases | exact Hbuild |].
  intros e. unfold call_build. unfold_store.
  destruct (h !! recv) as [o|] eqn:Hrecv; simpl; [|congruence].
  pose proof (steps_created ops init_heap init_heap_created _ _ Hrecv) as Ho.
  rewrite (created_read_build o Ho). apply Hbuild.
Qed.

(** ** The example module *)

(** X12.  Loading [src/index.ts] stops at line 7: the first [withContext]
    returns, the second throws the error of [extend], and neither [tool]
    nor [build] runs.  The store then holds builders without tool
    configuration only, the exported [toolBuilder] as it was among them,
    whatever the schemas, the function and the context value are. *)
Theorem index_ts_throws (lastName age : Schema) (source : Ctx → Tool) ctx :
  ∃ h',
    index_ts lastName age source ctx init_heap
    = (Throw (Error "Invalid input to extend: expected a plain object"), h')
    ∧ h' !! toolBuilder = Some (builder_obj None None)
    ∧ ∀ l o, h' !! l = Some o → ∃ cs, o = builder_obj None cs.
Proof.
  pose proof init_heap_root as H0.
  pose proof (withContext_adopts _ _ _ lastName H0) as H1.
  set (b1 := fresh (dom init_heap)) in *.
  set (h1 := <[b1 := _]> init_heap) in *.
  assert (h1 !! b1 = Some (builder_obj None (Some lastName))) as Hb1
    by apply lookup_insert_eq.
  pose proof (withContext_throws _ _ _ _ age Hb1) as H2.
  eexists. split_and!.
  - unfold index_ts, mbind, M_bind, bind. by rewrite H1, H2.
  - eapply lookup_weaken; [exact H0|]. etrans; apply alloc_extends.
  - intros l o. rewrite lookup_insert. case_decide; [intros [= <-]; by eexists|].
    unfold h1. rewrite lookup_insert. case_decide; [intros [= <-]; by eexists|].
    unfold init_heap; simpl. rewrite lookup_insert.
    case_decide; [intros [= <-]; by exists None | by rewrite lookup_empty].
Qed.

End Methods.

(** ** The hypotheses above, met *)

Section MethodWitnesses.
Import Zod Examples Fixtures.

Lemma withContext_adopts_first_schema_witness :
  ∃ b' h',
    withContext toolBuilder aString init_heap = (Ok b', h')
    ∧ (b' ∉ dom (init_heap (L := lib))) ∧ dom h' = dom init_heap ∪ {[b']}
    ∧ h' !! b' = Some (builder_obj None (Some aString)).
Proof.
  apply (withContext_adopts_first_schema (L := lib) init_heap toolBuilder None
           aString).
  reflexivity.
Defined.

Lemma tool_creates_builder_and_handle_witness :
  ∃ l hd h',
    tool 1%positive (@CStatic lib greet) plain_store = (Ok hd, h')
    ∧ plain_store ⊆ h' ∧ dom h' = dom plain_store ∪ {[l; hd]}
    ∧ (l ∉ dom plain_store) ∧ (hd ∉ dom plain_store) ∧ l ≠ hd
    ∧ h' !! l = Some (builder_obj (Some (CStatic greet)) None)
    ∧ h' !! hd = Some (handle_obj VBuild).
Proof.
  apply (tool_creates_builder_and_handle (L := lib) plain_store 1%positive
           None (Some apiKeySchema) (@CStatic lib greet)).
  reflexivity.
Defined.

Lemma tool_builder_builds_unvalidated_witness :
  ∃ l hd h',
    tool 1%positive (@CFunction lib weather) plain_store = (Ok hd, h')
    ∧ h' !! l = Some (builder_obj (Some (CFunction weather)) None)
    ∧ build l ctx_empty h' = (Ok (VTool (weather ctx_empty)), h').
Proof.
  apply (tool_builder_builds_unvalidated (L := lib) plain_store 1%positive
           None (Some apiKeySchema) (@CFunction lib weather) ctx_empty).
  reflexivity.
Defined.

Lemma build_static_unvalidated_witness :
  parse apiKeySchema ctx_empty = inl ["apiKey"]
  ∧ build 1%positive ctx_empty static_store = (Ok (VTool greet), static_store).
Proof.
  split; [vm_compute; reflexivity|].
  apply (build_static_unvalidated (L := lib) static_store 1%positive greet
           (Some apiKeySchema) ctx_empty).
  reflexivity.
Defined.

Lemma build_function_without_schema_witness :
  build 1%positive ctx_empty unschemed_store
  = (Ok (VTool (weather ctx_empty)), unschemed_store).
Proof.
  apply (build_function_without_schema (L := lib) unschemed_store 1%positive
           weather ctx_empty).
  reflexivity.
Defined.

Lemma build_rejects_invalid_ctx_witness :
  build 1%positive ctx_empty configured = (Throw (ZodErr ["apiKey"]), configured).
Proof.
  apply (build_rejects_invalid_ctx (L := lib) configured 1%positive regional
           apiKeySchema ctx_empty ["apiKey"]).
  - reflexivity.
  - vm_compute. reflexivity.
Defined.

Lemma build_unconfigured_throws_witness :
  build 1%positive ctx_empty plain_store
  = (Throw (Error "Tool not configured"), plain_store).
Proof.
  apply (proj1 (build_unconfigured_throws (L := lib)) plain_store 1%positive
           (Some apiKeySchema) ctx_empty).
  reflexivity.
Defined.

Lemma no_builder_holds_schema_and_config_witness :
  created (builder_obj (L := lib) (Some (@CStatic lib greet)) None)
  ∧ (truthy (read (builder_obj (L := lib) (Some (@CStatic lib greet)) None)
               "toolConfig") = false
     ∨ truthy (read (builder_obj (L := lib) (Some (@CStatic lib greet)) None)
                 "contextSchema") = false).
Proof.
  apply (no_builder_holds_schema_and_config (L := lib)
           [@OWithContext lib toolBuilder apiKeySchema;
            @OTool lib 2%positive (@CStatic lib greet)]
           3%positive).
  reflexivity.
Defined.

End MethodWitnesses.
